(** * NYC Yellow Taxi dashboard (app.py): the filtering and aggregation pipeline

    A shallow embedding of [app.py].  A pandas DataFrame is a list of rows in
    index order, each row a record of the columns the dashboard reads.  The
    pandas operations the file calls (boolean indexing, [isin], [unique],
    [groupby], [size], [mean], [merge], [nlargest], [sort_values], [sample])
    are written out on lists in [Module Pandas]; the functions of [app.py]
    follow, under their own names.

    Float columns (fares, amounts, distances, durations) are carried as
    exact rationals; a payment code that is missing and a mean that is NaN
    are [None]. *)

From Stdlib Require Import List ZArith QArith String Ascii Bool Lia.
From Stdlib Require Import Permutation Sorted RelationClasses.
Import ListNotations.

Local Open Scope string_scope.
Local Open Scope list_scope.
Local Open Scope Z_scope.

(* ================================================================== *)
(** ** Python values: exceptions and results *)

(** The exceptions the modelled code can raise, all of them from pandas. *)
Inductive exn : Type :=
| KeyError (key : string)      (* df[col] on a column the frame lacks *)
| ValueError (msg : string)    (* sample(n) with n above the population *)
| IndexError (msg : string).   (* take() at a position outside the frame *)

Inductive result (A : Type) : Type :=
| Ok (a : A)
| Raise (e : exn).

Arguments Ok {A} a.
Arguments Raise {A} e.

Definition bind {A B : Type} (m : result A) (k : A -> result B) : result B :=
  match m with
  | Ok a => k a
  | Raise e => Raise e
  end.

Notation "x <- m ;; k" := (bind m (fun x => k))
  (at level 61, m at next level, right associativity).

(** Truth value of a Python list: [if payment_types:]. *)
Definition truthy {A : Type} (l : list A) : bool :=
  match l with
  | [] => false
  | _ :: _ => true
  end.

(** Lookup in a dict given as its items; [None] when the key is absent. *)
Fixpoint dict_get {V : Type} (d : list (Z * V)) (k : Z) : option V :=
  match d with
  | [] => None
  | (k', v) :: d' => if Z.eqb k k' then Some v else dict_get d' k
  end.

(* ================================================================== *)
(** ** Calendar dates and timestamps *)

(** [datetime.date]: compared as the tuple (year, month, day). *)
Record Date : Type := mkDate { year : Z; month : Z; day : Z }.

Definition date_cmp (a b : Date) : comparison :=
  match Z.compare (year a) (year b) with
  | Eq => match Z.compare (month a) (month b) with
          | Eq => Z.compare (day a) (day b)
          | c => c
          end
  | c => c
  end.

(** [a >= b] and [a <= b] on dates. *)
Definition date_ge (a b : Date) : bool :=
  match date_cmp a b with Lt => false | _ => true end.

Definition date_le (a b : Date) : bool :=
  match date_cmp a b with Gt => false | _ => true end.

(** A pandas Timestamp (timezone-naive): its calendar date and the
    nanoseconds elapsed since midnight.  [dt_date] is [.dt.date]. *)
Record Timestamp : Type := mkTimestamp { ts_date : Date; ts_nanos : Z }.

Definition dt_date (t : Timestamp) : Date := ts_date t.

(* ================================================================== *)
(** ** Keys of groupby, unique and isin *)

Class Key (K : Type) : Type := {
  key_eqb : K -> K -> bool;
  key_leb : K -> K -> bool;
  key_eqb_spec : forall a b, reflect (a = b) (key_eqb a b)
}.

#[export] Instance Key_Z : Key Z :=
  {| key_eqb := Z.eqb; key_leb := Z.leb; key_eqb_spec := Z.eqb_spec |}.

#[export] Instance Key_string : Key string :=
  {| key_eqb := String.eqb; key_leb := String.leb;
     key_eqb_spec := String.eqb_spec |}.

Lemma pair_eqb_spec {A B : Type} `{Key A} `{Key B} (p q : A * B) :
  reflect (p = q) (key_eqb (fst p) (fst q) && key_eqb (snd p) (snd q)).
Proof.
  destruct p as [a b], q as [a' b']; simpl.
  destruct (key_eqb_spec a a'), (key_eqb_spec b b'); simpl;
    constructor; congruence.
Qed.

(** Tuples order lexicographically, as the keys of a two-column groupby. *)
#[export] Instance Key_pair {A B : Type} `{Key A} `{Key B} : Key (A * B) :=
  {| key_eqb := fun p q => key_eqb (fst p) (fst q) && key_eqb (snd p) (snd q);
     key_leb := fun p q =>
       if key_eqb (fst p) (fst q) then key_leb (snd p) (snd q)
       else key_leb (fst p) (fst q);
     key_eqb_spec := pair_eqb_spec |}.

(* ================================================================== *)
(** ** The pandas operations used by app.py *)

Module Pandas.

Section Frames.
Context {A : Type}.

(** Elementwise [&] of two boolean Series over one index. *)
Definition mask_and (m1 m2 : list bool) : list bool :=
  map (fun p => andb (fst p) (snd p)) (combine m1 m2).

(** [df[mask]]: the rows whose mask cell is True, in index order. *)
Fixpoint boolean_index (df : list A) (mask : list bool) : list A :=
  match df, mask with
  | r :: df', b :: mask' =>
      if b then r :: boolean_index df' mask' else boolean_index df' mask'
  | _, _ => []
  end.

(** [df.empty]. *)
Definition empty (df : list A) : bool :=
  match df with [] => true | _ :: _ => false end.

(** [len(df)]. *)
Definition len (df : list A) : Z := Z.of_nat (List.length df).

(** [df.take(locs)]: the rows at the given positions, in the given order.
    A position outside the frame has no row. *)
Fixpoint take (df : list A) (locs : list nat) : option (list A) :=
  match locs with
  | [] => Some []
  | i :: locs' =>
      match nth_error df i, take df locs' with
      | Some r, Some rs => Some (r :: rs)
      | _, _ => None
      end
  end.

(** [sort_values(by)], and Python's [sorted]: rows ordered by [le] on the
    key, [<=] for ascending and [>=] for descending order.  Rows with equal
    keys stay in their original order (pandas' default quicksort leaves
    their order to numpy; no statement below depends on it). *)
Section Sorting.
Context {K : Type} (le : K -> K -> bool) (by_ : A -> K).

Fixpoint insert_row (x : A) (l : list A) : list A :=
  match l with
  | [] => [x]
  | y :: t => if le (by_ x) (by_ y) then x :: y :: t
              else y :: insert_row x t
  end.

Definition sort_values (l : list A) : list A :=
  fold_right insert_row [] l.
End Sorting.

(** [nlargest(n, column)] with keep='first': the first [n] rows of the
    frame sorted by the column, largest first, ties in frame order. *)
Definition nlargest (n : nat) (column : A -> Z) (df : list A) : list A :=
  firstn n (sort_values Z.geb column df).

End Frames.

Section Keyed.
Context {K : Type} `{Key K}.

(** [Series.isin(values)]. *)
Definition isin (s : list K) (values : list K) : list bool :=
  map (fun x => existsb (key_eqb x) values) s.

(** [Series.unique()]: distinct values in order of first appearance. *)
Fixpoint unique (s : list K) : list K :=
  match s with
  | [] => []
  | x :: t => x :: filter (fun y => negb (key_eqb y x)) (unique t)
  end.

(** [df.groupby(key)] (sort=True): the group keys in ascending order, each
    with its rows in frame order. *)
Definition groupby {A : Type} (key : A -> K) (df : list A)
  : list (K * list A) :=
  map (fun k => (k, filter (fun r => key_eqb (key r) k) df))
      (sort_values key_leb (fun k => k) (unique (map key df))).

(** [.size().reset_index(name=...)]: one row per group, key and row count. *)
Definition size {A : Type} (g : list (K * list A)) : list (K * Z) :=
  map (fun kg => (fst kg, len (snd kg))) g.
End Keyed.

(** [left.merge(right, left_on=..., right_on=..., how="left")]: every left
    row in order, once per matching right row (in right order), or once with
    the right cells missing when no right row matches. *)
Definition merge_left {L R K : Type} `{Key K} (left_on : L -> K)
  (right_on : R -> K) (left : list L) (right : list R) : list (L * option R) :=
  flat_map
    (fun l =>
       match filter (fun r => key_eqb (right_on r) (left_on l)) right with
       | [] => [(l, None)]
       | matches => map (fun r => (l, Some r)) matches
       end)
    left.

(** [Series.sum()] and [Series.mean()] of a float column; the mean of an
    empty column is NaN. *)
Definition sum (s : list Q) : Q := fold_right Qplus 0%Q s.

Definition mean (s : list Q) : option Q :=
  match s with
  | [] => None
  | _ :: _ => Some (sum s / inject_Z (len s))%Q
  end.

(** [g[column].mean().reset_index()]: one row per group, key and mean. *)
Definition group_mean {K A : Type} (column : A -> Q) (g : list (K * list A))
  : list (K * option Q) :=
  map (fun kg => (fst kg, mean (map column (snd kg)))) g.

(** [Series.map(dict)]: a missing cell stays missing, a value the dict lacks
    becomes missing. *)
Definition series_map {V : Type} (d : list (Z * V)) (s : list (option Z))
  : list (option V) :=
  map (fun c => match c with Some k => dict_get d k | None => None end) s.

(** [Series.fillna(value)]. *)
Definition fillna {V : Type} (value : V) (s : list (option V)) : list V :=
  map (fun c => match c with Some v => v | None => value end) s.

End Pandas.

Import Pandas.

(* ================================================================== *)
(** ** Rows *)

(** A row of the cleaned trip file, as [pd.read_parquet] delivers it.  The
    file already carries [pickup_hour] and [pickup_day_of_week]; timestamps
    are stored as datetimes. *)
Record RawTrip : Type := mkRawTrip {
  tpep_pickup_datetime : Timestamp;
  tpep_dropoff_datetime : Timestamp;
  PULocationID : Z;
  payment_type : option Z;          (* None: missing *)
  fare_amount : Q;
  total_amount : Q;
  trip_distance : Q;
  trip_duration_minutes : Q;
  pickup_hour : Z;
  pickup_day_of_week : string
}.

(** The frame read from the parquet file: the column labels it carries and
    its rows.  A cell of a column the frame does not list is never read:
    the lookup of the label raises first. *)
Record RawFrame : Type := mkRawFrame {
  columns : list string;
  rows : list RawTrip
}.

(** A row of the frame [load_trip_data] returns: the file's row and the
    added [payment_label] column. *)
Record Trip : Type := mkTrip {
  raw : RawTrip;
  payment_label : string
}.

(** A row of the zone lookup table.  [read_csv] reads the cells "NA" and
    "N/A" as missing. *)
Record ZoneRow : Type := mkZoneRow {
  LocationID : Z;
  Borough : option string;
  Zone : option string;
  service_zone : option string
}.

(** [df[col]] on the file's frame. *)
Definition getitem {C : Type} (df : RawFrame) (col : string)
  (cell : RawTrip -> C) : result (list C) :=
  if existsb (String.eqb col) (columns df) then Ok (map cell (rows df))
  else Raise (KeyError col).

(** [pd.to_datetime] on a column that holds datetimes already. *)
Definition to_datetime (s : list Timestamp) : list Timestamp := s.

Definition set_pickup (r : RawTrip) (t : Timestamp) : RawTrip :=
  mkRawTrip t (tpep_dropoff_datetime r) (PULocationID r) (payment_type r)
    (fare_amount r) (total_amount r) (trip_distance r)
    (trip_duration_minutes r) (pickup_hour r) (pickup_day_of_week r).

Definition set_dropoff (r : RawTrip) (t : Timestamp) : RawTrip :=
  mkRawTrip (tpep_pickup_datetime r) t (PULocationID r) (payment_type r)
    (fare_amount r) (total_amount r) (trip_distance r)
    (trip_duration_minutes r) (pickup_hour r) (pickup_day_of_week r).

(** [df[col] = values] for a column the frame has: every row gets the cell
    at its position. *)
Definition setitem {C : Type} (df : RawFrame) (set : RawTrip -> C -> RawTrip)
  (values : list C) : RawFrame :=
  mkRawFrame (columns df)
    (map (fun rv => set (fst rv) (snd rv)) (combine (rows df) values)).

(* ================================================================== *)
(** ** app.py *)

Definition PAYMENT_MAP : list (Z * string) :=
  [ (1, "Credit Card");
    (2, "Cash");
    (3, "No Charge");
    (4, "Dispute");
    (0, "Unknown");
    (6, "Voided Trip") ].

Definition load_trip_data (file : RawFrame) : result (list Trip) :=
  let df := file in
  pick <- getitem df "tpep_pickup_datetime" tpep_pickup_datetime ;;
  let df := setitem df set_pickup (to_datetime pick) in
  drop <- getitem df "tpep_dropoff_datetime" tpep_dropoff_datetime ;;
  let df := setitem df set_dropoff (to_datetime drop) in
  codes <- getitem df "payment_type" payment_type ;;
  let labels := fillna "Other" (series_map PAYMENT_MAP codes) in
  Ok (map (fun rl => mkTrip (fst rl) (snd rl)) (combine (rows df) labels)).

Definition pickup_date (r : Trip) : Date :=
  dt_date (tpep_pickup_datetime (raw r)).

Definition apply_filters (df : list Trip) (start_date end_date : Date)
  (hour_min hour_max : Z) (payment_types : list string) : list Trip :=
  let mask :=
    mask_and
      (mask_and
         (mask_and (map (fun r => date_ge (pickup_date r) start_date) df)
                   (map (fun r => date_le (pickup_date r) end_date) df))
         (map (fun r => Z.geb (pickup_hour (raw r)) hour_min) df))
      (map (fun r => Z.leb (pickup_hour (raw r)) hour_max) df) in
  let mask :=
    if truthy payment_types
    then mask_and mask (isin (map payment_label df) payment_types)
    else mask in
  boolean_index df mask.

(** The options of the payment multiselect in [main]:
    [sorted(df_full["payment_label"].dropna().unique().tolist())].  The label
    column holds a string in every row, so [dropna] keeps every cell. *)
Definition all_payment_types (df_full : list Trip) : list string :=
  sort_values String.leb (fun s => s) (unique (map payment_label df_full)).

(* ------------------------------------------------------------------ *)
(** *** Aggregation helpers *)

(** [zones[["LocationID", "Zone", "Borough"]]]. *)
Definition zone_columns (zones : list ZoneRow)
  : list (Z * option string * option string) :=
  map (fun z => (LocationID z, Zone z, Borough z)) zones.

(** A row of the Top Pickup Zones table: columns Zone, Borough, trip_count. *)
Record TopZone : Type := mkTopZone {
  tz_Zone : option string;
  tz_Borough : option string;
  tz_trip_count : Z
}.

(** The columns [["Zone", "Borough", "trip_count"]] of a merged row: the
    zone cells are missing when no zone row matched. *)
Definition top_zone_columns
  (m : (Z * Z) * option (Z * option string * option string)) : TopZone :=
  match snd m with
  | Some z => mkTopZone (snd (fst z)) (snd z) (snd (fst m))
  | None => mkTopZone None None (snd (fst m))
  end.

Definition agg_top_zones (df : list Trip) (zones : list ZoneRow)
  : list TopZone :=
  let zone_counts := size (groupby (fun r => PULocationID (raw r)) df) in
  let merged :=
    merge_left (fun c => fst c) (fun z => fst (fst z))
      zone_counts (zone_columns zones) in
  map top_zone_columns (nlargest 10 (fun m => snd (fst m)) merged).

(** Columns pickup_hour and avg_fare ([rename] only relabels the column). *)
Definition agg_fare_by_hour (df : list Trip) : list (Z * option Q) :=
  sort_values Z.leb (fun row => fst row)
    (group_mean (fun r => fare_amount (raw r))
       (groupby (fun r => pickup_hour (raw r)) df)).

(** Columns payment_label and trip_count. *)
Definition agg_payment_types (df : list Trip) : list (string * Z) :=
  sort_values Z.geb (fun row => snd row)
    (size (groupby payment_label df)).

(** Columns pickup_day_of_week, pickup_hour and trip_count. *)
Definition agg_heatmap (df : list Trip) : list ((string * Z) * Z) :=
  size (groupby (fun r => (pickup_day_of_week (raw r), pickup_hour (raw r)))
          df).

(* ------------------------------------------------------------------ *)
(** *** The page *)

(** What the sidebar widgets return: both dates of the range chosen, the
    ends of the hour slider, the selected payment labels. *)
Record Sidebar : Type := mkSidebar {
  date_range : Date * Date;
  hour_range : Z * Z;
  selected_payments : list string
}.

(** The data-bearing elements [main] writes to the page, in page order
    (titles, captions and dividers carry no data and are left out). *)
Inductive Element : Type :=
| st_error (msg : string)
| st_warning (msg : string)
| key_metrics (total_trips : Z) (avg_fare : option Q) (total_revenue : Q)
    (avg_distance avg_duration : option Q)
| top_zones_chart (top_zones : list TopZone)
| fare_by_hour_chart (fare_by_hour : list (Z * option Q))
| distance_histogram (df_sample : list Trip)
| payment_chart (payment_counts : list (string * Z))
| heatmap_chart (heatmap_data : list ((string * Z) * Z)).

Section Dashboard.
(** numpy's generator: its state, seeding ([RandomState(seed)]) and
    [permutation(n)], which returns a rearrangement of range(n) and the
    state after the draw. *)
Context {G : Type}.
Variable RandomState : Z -> G.
Variable permutation : G -> nat -> list nat * G.

(** [df.sample(n=n, random_state=random_state)], without replacement and
    unweighted: the rows at the first [n] positions of a permutation of
    range(len(df)).  An integer [random_state] seeds a generator of its
    own; None draws from numpy's global generator [np_random], and only
    then does the global generator advance.  The second component is the
    global generator after the call. *)
Definition sample {A : Type} (df : list A) (n : Z) (random_state : option Z)
  (np_random : G) : result (list A) * G :=
  if n <? 0 then
    (Raise (ValueError
       "A negative number of rows requested. Please provide `n` >= 0."),
     np_random)
  else if len df <? n then
    (Raise (ValueError
       "Cannot take a larger sample than population when 'replace=False'"),
     np_random)
  else
    let rs := match random_state with
              | Some seed => RandomState seed
              | None => np_random
              end in
    let (perm, rs') := permutation rs (List.length df) in
    let np_random' := match random_state with
                      | Some _ => np_random
                      | None => rs'
                      end in
    match take df (firstn (Z.to_nat n) perm) with
    | Some rows => (Ok rows, np_random')
    | None => (Raise (IndexError "indices are out-of-bounds"), np_random')
    end.

(** Lines 253-254 of [main]: the rows the distance histogram is drawn
    from. *)
Definition distance_sample (df : list Trip) (np_random : G)
  : result (list Trip) * G :=
  let sample_size := Z.min 200000 (len df) in
  sample df sample_size (Some 42) np_random.

(** [main], from the existence test of the cleaned file on.  [file] is
    None when the file is absent.  [st.stop()] ends the run: the page is
    what was written before it.  A run that raises has no page. *)
Definition main (file : option RawFrame) (df_zones : list ZoneRow)
  (sidebar : Sidebar) (np_random : G) : result (list Element) :=
  match file with
  | None =>
      Ok [st_error "Cleaned data not found at `data/cleaned_taxi_data.parquet`. Please run the notebook first to generate the cleaned parquet file."]
  | Some f =>
      df_full <- load_trip_data f ;;
      let (start_date, end_date) := date_range sidebar in
      let (hour_min, hour_max) := hour_range sidebar in
      let df := apply_filters df_full start_date end_date hour_min hour_max
                  (selected_payments sidebar) in
      if empty df then
        Ok [st_warning
              "No data matches the current filters. Please adjust the sidebar."]
      else
        let metrics :=
          key_metrics (len df)
            (mean (map (fun r => fare_amount (raw r)) df))
            (sum (map (fun r => total_amount (raw r)) df))
            (mean (map (fun r => trip_distance (raw r)) df))
            (mean (map (fun r => trip_duration_minutes (raw r)) df)) in
        let top_zones := agg_top_zones df df_zones in
        let fare_by_hour := agg_fare_by_hour df in
        df_sample <- fst (distance_sample df np_random) ;;
        let payment_counts := agg_payment_types df in
        let heatmap_data := agg_heatmap df in
        Ok [ metrics;
             top_zones_chart (sort_values Z.leb tz_trip_count top_zones);
             fare_by_hour_chart fare_by_hour;
             distance_histogram df_sample;
             payment_chart payment_counts;
             heatmap_chart heatmap_data ]
  end.
End Dashboard.

(* ================================================================== *)
(** * Specification-side predicates *)

(** Calendar order of dates: [a] is not after [b]. *)
Definition Date_le (a b : Date) : Prop :=
  year a < year b \/
  (year a = year b /\
   (month a < month b \/ (month a = month b /\ day a <= day b))).

(** A trip passes the criteria: pickup date within the date range, pickup
    hour within the hour range, and label allowed (no label given allows
    every label). *)
Definition passes (start_date end_date : Date) (hour_min hour_max : Z)
  (payment_labels : list string) (r : Trip) : Prop :=
  Date_le start_date (pickup_date r) /\
  Date_le (pickup_date r) end_date /\
  hour_min <= pickup_hour (raw r) /\
  pickup_hour (raw r) <= hour_max /\
  (payment_labels = [] \/ In (payment_label r) payment_labels).

(** The same test as a boolean, to filter with. *)
Definition passesb (start_date end_date : Date) (hour_min hour_max : Z)
  (payment_labels : list string) (r : Trip) : bool :=
  date_le start_date (pickup_date r) &&
  date_le (pickup_date r) end_date &&
  (hour_min <=? pickup_hour (raw r)) &&
  (pickup_hour (raw r) <=? hour_max) &&
  match payment_labels with
  | [] => true
  | _ :: _ => existsb (String.eqb (payment_label r)) payment_labels
  end.

(** The label the fixed table gives a payment code; "Other" for a code
    outside the table and for a missing code. *)
Definition payment_label_spec (code : option Z) : string :=
  match code with
  | Some 1 => "Credit Card"
  | Some 2 => "Cash"
  | Some 3 => "No Charge"
  | Some 4 => "Dispute"
  | Some 0 => "Unknown"
  | Some 6 => "Voided Trip"
  | _ => "Other"
  end.

(** The columns [load_trip_data] looks up, in the order it does. *)
Definition required_columns : list string :=
  ["tpep_pickup_datetime"; "tpep_dropoff_datetime"; "payment_type"].

Definition has_column (df : RawFrame) (col : string) : bool :=
  existsb (String.eqb col) (columns df).

Definition has_required_columns (df : RawFrame) : bool :=
  forallb (has_column df) required_columns.



Definition hour_of (r : Trip) : Z := pickup_hour (raw r).


(** The rows of a frame at the positions of [locs] that fall inside it. *)
Definition rows_at {A : Type} (df : list A) (locs : list nat) : list A :=
  flat_map (fun i => match nth_error df i with
                     | Some r => [r]
                     | None => []
                     end) locs.

(* ================================================================== *)
(** * Sample data *)

Definition jan (d : Z) : Date := mkDate 2024 1 d.

Definition trip_on (d hour : Z) (fare : Q) (code : option Z) (loc : Z)
  : RawTrip :=
  mkRawTrip (mkTimestamp (jan d) 0) (mkTimestamp (jan d) 600000000000)
    loc code fare fare 1%Q 10%Q hour "Monday".

Definition cleaned_columns : list string :=
  ["tpep_pickup_datetime"; "tpep_dropoff_datetime"; "PULocationID";
   "payment_type"; "fare_amount"; "total_amount"; "trip_distance";
   "trip_duration_minutes"; "pickup_hour"; "pickup_day_of_week"].

(** Three trips: (hour 5, fare 40, credit card), (hour 5, fare 20, cash),
    (hour 17, fare 15, credit card). *)
Definition scenario_file : RawFrame :=
  mkRawFrame cleaned_columns
    [ trip_on 1 5 40%Q (Some 1) 161;
      trip_on 2 5 20%Q (Some 2) 161;
      trip_on 3 17 15%Q (Some 1) 132 ].

Definition scenario_view : list Trip :=
  map (fun r => mkTrip r (payment_label_spec (payment_type r)))
    (rows scenario_file).

(** A file with a code outside the table and a missing code. *)
Definition odd_codes_file : RawFrame :=
  mkRawFrame cleaned_columns
    [ trip_on 1 8 10%Q (Some 5) 161;
      trip_on 1 9 12%Q None 161;
      trip_on 1 9 7%Q (Some 6) 48 ].

(** A file without the payment-code column. *)
Definition no_payment_file : RawFrame :=
  mkRawFrame ["tpep_pickup_datetime"; "tpep_dropoff_datetime"; "pickup_hour"]
    (rows scenario_file).





(* ================================================================== *)
(** * The sidebar defaults and further vocabulary *)


(** [Series.min()] and [Series.max()] of a column of dates; a column
    without cells has neither (pandas gives NaN). *)
Fixpoint date_min (s : list Date) : option Date :=
  match s with
  | [] => None
  | d :: t => match date_min t with
              | None => Some d
              | Some m => Some (if date_le d m then d else m)
              end
  end.

Fixpoint date_max (s : list Date) : option Date :=
  match s with
  | [] => None
  | d :: t => match date_max t with
              | None => Some d
              | Some m => Some (if date_ge d m then d else m)
              end
  end.

(** [min_date] and [max_date] of [main]. *)
Definition min_date (df_full : list Trip) : option Date :=
  date_min (map pickup_date df_full).

Definition max_date (df_full : list Trip) : option Date :=
  date_max (map pickup_date df_full).

(** What the three widgets return while the user has touched none of them:
    the whole date range of the data, hours 0 to 23, every payment label.
    On a frame without rows there is no date to offer. *)
Definition default_sidebar (df_full : list Trip) : option Sidebar :=
  match min_date df_full, max_date df_full with
  | Some lo, Some hi =>
      Some (mkSidebar (lo, hi) (0, 23) (all_payment_types df_full))
  | _, _ => None
  end.

(** The filtered view [main] computes from the sidebar. *)
Definition view_of (df_full : list Trip) (sidebar : Sidebar) : list Trip :=
  apply_filters df_full
    (fst (date_range sidebar)) (snd (date_range sidebar))
    (fst (hour_range sidebar)) (snd (hour_range sidebar))
    (selected_payments sidebar).

(** The labels [load_trip_data] can give a row. *)
Definition known_labels : list string := map snd PAYMENT_MAP ++ ["Other"].

(** The first column, in lookup order, that the file lacks. *)
Definition first_missing (file : RawFrame) : option string :=
  find (fun col => negb (has_column file col)) required_columns.



(* ================================================================== *)
(** * Facts about the pandas operations *)

Section FrameFacts.
Context {A : Type}.

Lemma mask_and_map (f g : A -> bool) (df : list A) :
  mask_and (map f df) (map g df) = map (fun r => f r && g r) df.
Proof.
  unfold mask_and. induction df as [|r df IH]; simpl; [reflexivity|].
  now rewrite IH.
Qed.

Lemma boolean_index_map (f : A -> bool) (df : list A) :
  boolean_index df (map f df) = filter f df.
Proof.
  induction df as [|r df IH]; simpl; [reflexivity|].
  rewrite IH. reflexivity.
Qed.

Lemma filter_idempotent (f : A -> bool) (l : list A) :
  filter f (filter f l) = filter f l.
Proof.
  induction l as [|x l IH]; simpl; [reflexivity|].
  destruct (f x) eqn:E; simpl; [rewrite E, IH|]; auto.
Qed.

Lemma combine_map_r {B C : Type} (g : A * B -> C) (f : A -> B) (l : list A) :
  map g (combine l (map f l)) = map (fun r => g (r, f r)) l.
Proof.
  induction l as [|x l IH]; simpl; [reflexivity|]. now rewrite IH.
Qed.

Section SortFacts.
Context {K : Type} (le : K -> K -> bool) (by_ : A -> K).

Lemma insert_row_perm (x : A) (l : list A) :
  Permutation (insert_row le by_ x l) (x :: l).
Proof.
  induction l as [|y t IH]; simpl; [apply Permutation_refl|].
  destruct (le (by_ x) (by_ y)); [apply Permutation_refl|].
  eapply perm_trans; [apply perm_skip, IH | apply perm_swap].
Qed.

Lemma sort_values_perm (l : list A) :
  Permutation (sort_values le by_ l) l.
Proof.
  induction l as [|x l IH]; simpl; [constructor|].
  eapply perm_trans; [apply insert_row_perm | now apply perm_skip].
Qed.

Lemma sort_values_In (x : A) (l : list A) :
  In x (sort_values le by_ l) <-> In x l.
Proof.
  split; apply Permutation_in;
    [apply sort_values_perm | apply Permutation_sym, sort_values_perm].
Qed.


(** With a total, transitive order the sorted rows are strongly sorted:
    every row is [le] every later row. *)
Hypothesis le_total : forall a b, le a b = true \/ le b a = true.
Hypothesis le_trans :
  forall a b c, le a b = true -> le b c = true -> le a c = true.

Let R (x y : A) : Prop := le (by_ x) (by_ y) = true.

Lemma insert_row_sorted (x : A) (l : list A) :
  StronglySorted R l -> StronglySorted R (insert_row le by_ x l).
Proof.
  induction 1 as [|y t Ht IH Hy]; simpl.
  - constructor; constructor.
  - destruct (le (by_ x) (by_ y)) eqn:E.
    + constructor; [now constructor|].
      constructor; [exact E|].
      eapply Forall_impl; [|exact Hy].
      intros z Hz. unfold R in *. eapply le_trans; eauto.
    + constructor; [exact IH|].
      assert (Hyx : R y x).
      { unfold R. destruct (le_total (by_ x) (by_ y)); congruence. }
      rewrite Forall_forall. intros z Hz.
      apply (Permutation_in _ (insert_row_perm x t)) in Hz.
      destruct Hz as [<-|Hz]; [exact Hyx|].
      rewrite Forall_forall in Hy. now apply Hy.
Qed.

Lemma sort_values_sorted (l : list A) :
  StronglySorted R (sort_values le by_ l).
Proof.
  induction l as [|x l IH]; simpl; [constructor|].
  now apply insert_row_sorted.
Qed.
End SortFacts.

Lemma In_firstn (n : nat) (x : A) (l : list A) :
  In x (firstn n l) -> In x l.
Proof.
  intros Hx. rewrite <- (firstn_skipn n l). apply in_or_app. now left.
Qed.

End FrameFacts.

Section KeyFacts.
Context {K : Type} `{Key K}.

Lemma key_eqb_true (a b : K) : key_eqb a b = true <-> a = b.
Proof. destruct (key_eqb_spec a b); split; congruence. Qed.

Lemma key_eqb_refl (a : K) : key_eqb a a = true.
Proof. now apply key_eqb_true. Qed.

Lemma existsb_key_In (x : K) (l : list K) :
  existsb (key_eqb x) l = true <-> In x l.
Proof.
  rewrite existsb_exists. split.
  - intros [y [Hy E]]. apply key_eqb_true in E. now subst.
  - intros Hx. exists x. split; [exact Hx | apply key_eqb_refl].
Qed.

Lemma unique_In (x : K) (s : list K) : In x (unique s) <-> In x s.
Proof.
  induction s as [|y t IH]; simpl; [tauto|].
  rewrite filter_In, IH, negb_true_iff.
  destruct (key_eqb_spec x y) as [->|N]; split;
    intuition congruence.
Qed.

Lemma unique_NoDup (s : list K) : NoDup (unique s).
Proof.
  induction s as [|y t IH]; simpl; constructor.
  - rewrite filter_In, negb_true_iff, key_eqb_refl. intros [_ E]. discriminate.
  - now apply NoDup_filter.
Qed.
End KeyFacts.

(* ================================================================== *)
(** * The filter engine: apply_filters *)

Lemma date_cmp_le (a b : Date) : date_le a b = true <-> Date_le a b.
Proof.
  unfold date_le, date_cmp, Date_le.
  destruct (Z.compare_spec (year a) (year b));
    destruct (Z.compare_spec (month a) (month b));
    destruct (Z.compare_spec (day a) (day b));
    split; intros; try discriminate; try reflexivity; lia.
Qed.

Lemma date_ge_le (a b : Date) : date_ge a b = date_le b a.
Proof.
  unfold date_ge, date_le, date_cmp.
  rewrite (Z.compare_antisym (year a) (year b)).
  rewrite (Z.compare_antisym (month a) (month b)).
  rewrite (Z.compare_antisym (day a) (day b)).
  destruct (year a ?= year b), (month a ?= month b), (day a ?= day b);
    reflexivity.
Qed.

Lemma existsb_string_In (x : string) (l : list string) :
  existsb (String.eqb x) l = true <-> In x l.
Proof. exact (@existsb_key_In string Key_string x l). Qed.

Lemma passesb_iff (s e : Date) (hmin hmax : Z) (labels : list string)
  (r : Trip) :
  passesb s e hmin hmax labels r = true <-> passes s e hmin hmax labels r.
Proof.
  unfold passesb, passes.
  rewrite !andb_true_iff, !date_cmp_le, !Z.leb_le.
  destruct labels as [|l labels].
  - intuition auto.
  - rewrite existsb_string_In.
    intuition discriminate.
Qed.

(** The mask the function builds selects exactly the rows [passesb] keeps. *)
Lemma apply_filters_filter (df : list Trip) (s e : Date) (hmin hmax : Z)
  (labels : list string) :
  apply_filters df s e hmin hmax labels = filter (passesb s e hmin hmax labels) df.
Proof.
  unfold apply_filters.
  rewrite !mask_and_map.
  destruct labels as [|l labels]; simpl truthy; cbv iota.
  - rewrite boolean_index_map. apply filter_ext. intros r.
    unfold passesb. rewrite date_ge_le, Z.geb_leb, andb_true_r. reflexivity.
  - unfold isin. rewrite map_map, mask_and_map, boolean_index_map.
    apply filter_ext. intros r.
    unfold passesb. rewrite date_ge_le, Z.geb_leb. reflexivity.
Qed.

(** C1.  [apply_filters] returns the rows of the frame that pass the
    criteria, in their original order: a row is in the output iff it is a
    row of the input whose pickup date lies in [start_date, end_date], whose
    pickup hour lies in [hour_min, hour_max] and whose label is among
    [payment_labels] (or [payment_labels] is empty); the output is the input
    filtered by that test. *)
Theorem apply_filters_spec (df : list Trip) (start_date end_date : Date)
  (hour_min hour_max : Z) (payment_labels : list string) :
  apply_filters df start_date end_date hour_min hour_max payment_labels
  = filter (passesb start_date end_date hour_min hour_max payment_labels) df
  /\ (forall r,
        passesb start_date end_date hour_min hour_max payment_labels r = true
        <-> passes start_date end_date hour_min hour_max payment_labels r)
  /\ (forall r,
        In r (apply_filters df start_date end_date hour_min hour_max
                payment_labels)
        <-> In r df
            /\ passes start_date end_date hour_min hour_max payment_labels r).
Proof.
  split; [apply apply_filters_filter|].
  split; [intros r; apply passesb_iff|].
  intros r. rewrite apply_filters_filter, filter_In, passesb_iff. reflexivity.
Qed.

(** Selecting labels that cover every label of the frame filters nothing
    out on the label. *)
Lemma apply_filters_covering_labels (df : list Trip) (s e : Date)
  (hmin hmax : Z) (labels : list string) :
  (forall r, In r df -> In (payment_label r) labels) ->
  apply_filters df s e hmin hmax labels = apply_filters df s e hmin hmax [].
Proof.
  intros Hcover. rewrite !apply_filters_filter.
  apply filter_ext_in. intros r Hr.
  unfold passesb. f_equal.
  destruct labels as [|l ls]; [reflexivity|].
  apply existsb_string_In. now apply Hcover.
Qed.

(** C2.  Filtering with no payment label selected returns the same rows as
    filtering with every label present in the data selected. *)
Theorem apply_filters_empty_means_all (df : list Trip)
  (start_date end_date : Date) (hour_min hour_max : Z) :
  apply_filters df start_date end_date hour_min hour_max []
  = apply_filters df start_date end_date hour_min hour_max
      (all_payment_types df).
Proof.
  symmetry. apply apply_filters_covering_labels.
  intros r Hr. unfold all_payment_types.
  apply sort_values_In, unique_In, in_map, Hr.
Qed.

(** C9.  Filtering a filtered view again with the same criteria changes
    nothing. *)
Theorem apply_filters_idempotent (df : list Trip) (start_date end_date : Date)
  (hour_min hour_max : Z) (payment_labels : list string) :
  apply_filters
    (apply_filters df start_date end_date hour_min hour_max payment_labels)
    start_date end_date hour_min hour_max payment_labels
  = apply_filters df start_date end_date hour_min hour_max payment_labels.
Proof.
  rewrite !apply_filters_filter. apply filter_idempotent.
Qed.

(* ================================================================== *)
(** * The loader: load_trip_data *)

Lemma set_pickup_same (r : RawTrip) : set_pickup r (tpep_pickup_datetime r) = r.
Proof. now destruct r. Qed.

Lemma set_dropoff_same (r : RawTrip) :
  set_dropoff r (tpep_dropoff_datetime r) = r.
Proof. now destruct r. Qed.

(** Writing a column back with the cells it already holds leaves the frame
    as it was. *)
Lemma setitem_same {C : Type} (df : RawFrame) (set : RawTrip -> C -> RawTrip)
  (cell : RawTrip -> C) :
  (forall r, set r (cell r) = r) ->
  setitem df set (map cell (rows df)) = df.
Proof.
  intros Hset. unfold setitem.
  rewrite (combine_map_r (fun rv => set (fst rv) (snd rv)) cell). simpl.
  rewrite (map_ext _ (fun r => r)) by exact Hset.
  rewrite map_id. now destruct df.
Qed.

Lemma getitem_present {C : Type} (df : RawFrame) (col : string)
  (cell : RawTrip -> C) :
  has_column df col = true -> getitem df col cell = Ok (map cell (rows df)).
Proof. unfold getitem, has_column. now intros ->. Qed.

Lemma getitem_absent {C : Type} (df : RawFrame) (col : string)
  (cell : RawTrip -> C) :
  has_column df col = false -> getitem df col cell = Raise (KeyError col).
Proof. unfold getitem, has_column. now intros ->. Qed.


(** The label the code gives a cell: the dict lookup, then the fallback. *)
Lemma payment_label_lookup (code : option Z) :
  match match code with
        | Some k => dict_get PAYMENT_MAP k
        | None => None
        end
  with
  | Some v => v
  | None => "Other"
  end = payment_label_spec code.
Proof.
  destruct code as [k|]; [|reflexivity].
  destruct k as [|p|p]; [reflexivity| |reflexivity].
  do 3 (try destruct p as [p|p|]); reflexivity.
Qed.

(** With its three columns present the loader returns every row of the
    file, in order, with the label of its payment code added. *)
Lemma load_trip_data_ok (file : RawFrame) :
  has_required_columns file = true ->
  load_trip_data file
  = Ok (map (fun r => mkTrip r (payment_label_spec (payment_type r)))
          (rows file)).
Proof.
  unfold has_required_columns, required_columns. simpl.
  rewrite !andb_true_iff. intros (Hp & Hd & Hc & _).
  unfold load_trip_data.
  rewrite (getitem_present _ _ _ Hp). cbn [bind]. unfold to_datetime.
  rewrite (setitem_same _ _ _ set_pickup_same).
  rewrite (getitem_present _ _ _ Hd). cbn [bind].
  rewrite (setitem_same _ _ _ set_dropoff_same).
  rewrite (getitem_present _ _ _ Hc). cbn [bind].
  f_equal. unfold fillna, series_map. rewrite !map_map.
  rewrite (combine_map_r (fun rl => mkTrip (fst rl) (snd rl))). simpl.
  apply map_ext. intros r. f_equal. apply payment_label_lookup.
Qed.

(** Without one of them the lookup of the first absent column raises. *)
Lemma load_trip_data_raises (file : RawFrame) :
  has_required_columns file = false ->
  exists col, In col required_columns /\ has_column file col = false
              /\ load_trip_data file = Raise (KeyError col).
Proof.
  unfold has_required_columns, required_columns. simpl.
  intros Hreq. unfold load_trip_data, to_datetime.
  destruct (has_column file "tpep_pickup_datetime") eqn:Hp.
  2:{ exists "tpep_pickup_datetime". simpl.
      rewrite (getitem_absent _ _ _ Hp). auto. }
  rewrite (getitem_present _ _ _ Hp). cbn [bind].
  rewrite (setitem_same _ _ _ set_pickup_same).
  destruct (has_column file "tpep_dropoff_datetime") eqn:Hd.
  2:{ exists "tpep_dropoff_datetime". simpl.
      rewrite (getitem_absent _ _ _ Hd). auto. }
  rewrite (getitem_present _ _ _ Hd). cbn [bind].
  rewrite (setitem_same _ _ _ set_dropoff_same).
  destruct (has_column file "payment_type") eqn:Hc; [discriminate|].
  exists "payment_type". simpl.
  rewrite (getitem_absent _ _ _ Hc). auto.
Qed.

(** C3.  For a file with the columns the loader reads, every row's
    [payment_label] is the fixed table applied to its payment code, and
    "Other" for a code outside the table (or a missing code); the load
    returns all rows whatever the codes are. *)
Theorem payment_label_from_table (file : RawFrame) :
  has_required_columns file = true ->
  exists trips,
    load_trip_data file = Ok trips
    /\ map raw trips = rows file
    /\ Forall (fun t => payment_label t
                        = payment_label_spec (payment_type (raw t))) trips
    /\ payment_label_spec (Some 1) = "Credit Card"
    /\ payment_label_spec (Some 2) = "Cash"
    /\ payment_label_spec (Some 3) = "No Charge"
    /\ payment_label_spec (Some 4) = "Dispute"
    /\ payment_label_spec (Some 0) = "Unknown"
    /\ payment_label_spec (Some 6) = "Voided Trip"
    /\ (forall code,
          ~ In code [Some 1; Some 2; Some 3; Some 4; Some 0; Some 6] ->
          payment_label_spec code = "Other").
Proof.
  intros Hreq. eexists. split; [apply (load_trip_data_ok _ Hreq)|].
  split; [rewrite map_map; apply map_id|].
  split; [rewrite Forall_map; apply Forall_forall; reflexivity|].
  repeat (split; [reflexivity|]).
  intros [k|] Hk; [|reflexivity].
  destruct k as [|p|p]; [simpl in Hk; tauto | | reflexivity].
  do 3 (try destruct p as [p|p|]); try reflexivity; simpl in Hk; tauto.
Qed.


(* ================================================================== *)
(** * The aggregators *)

Section GroupFacts.
Context {K : Type} `{Key K} {A : Type} (key : A -> K).

Lemma groupby_keys (df : list A) :
  map fst (groupby key df)
  = sort_values key_leb (fun k => k) (unique (map key df)).
Proof.
  unfold groupby. rewrite map_map. simpl. apply map_id.
Qed.

Lemma groupby_keys_NoDup (df : list A) : NoDup (map fst (groupby key df)).
Proof.
  rewrite groupby_keys.
  eapply Permutation_NoDup;
    [apply Permutation_sym, sort_values_perm | apply unique_NoDup].
Qed.

Lemma groupby_keys_In (k : K) (df : list A) :
  In k (map fst (groupby key df)) <-> In k (map key df).
Proof. now rewrite groupby_keys, sort_values_In, unique_In. Qed.

Lemma in_groupby (kg : K * list A) (df : list A) :
  In kg (groupby key df) ->
  In (fst kg) (map key df)
  /\ snd kg = filter (fun r => key_eqb (key r) (fst kg)) df.
Proof.
  unfold groupby. rewrite in_map_iff. intros (k & <- & Hk). simpl.
  split; [|reflexivity].
  apply (proj1 (sort_values_In key_leb (fun k => k) _ _)) in Hk.
  exact (proj1 (unique_In _ _) Hk).
Qed.

(** A group is never empty. *)
Lemma in_groupby_nonempty (kg : K * list A) (df : list A) :
  In kg (groupby key df) -> snd kg <> [].
Proof.
  intros Hkg. destruct (in_groupby _ _ Hkg) as [Hk ->].
  apply in_map_iff in Hk. destruct Hk as (r & Hr & Hin).
  intros E.
  assert (Hf : In r (filter (fun r => key_eqb (key r) (fst kg)) df)).
  { apply filter_In. split; [exact Hin|]. now apply key_eqb_true. }
  rewrite E in Hf. exact Hf.
Qed.


End GroupFacts.


Lemma StronglySorted_map_impl {A B : Type} (R : A -> A -> Prop)
  (R' : B -> B -> Prop) (f : A -> B) (l : list A) :
  (forall x y, R x y -> R' (f x) (f y)) ->
  StronglySorted R l -> StronglySorted R' (map f l).
Proof.
  intros HR. induction 1 as [|x l Hl IH Hx]; simpl; constructor; auto.
  rewrite Forall_map. eapply Forall_impl; [|exact Hx]. auto.
Qed.



Lemma Zgeb_total (a b : Z) : (a >=? b) = true \/ (b >=? a) = true.
Proof. rewrite !Z.geb_leb, !Z.leb_le. lia. Qed.

Lemma Zgeb_trans (a b c : Z) :
  (a >=? b) = true -> (b >=? c) = true -> (a >=? c) = true.
Proof. rewrite !Z.geb_leb, !Z.leb_le. lia. Qed.


Section SizeFacts.
Context {K : Type} `{Key K} {A : Type} (key : A -> K).

Lemma size_keys (g : list (K * list A)) : map fst (size g) = map fst g.
Proof. unfold size. rewrite map_map. reflexivity. Qed.


End SizeFacts.






(* ================================================================== *)
(** * Sampling and the page *)

Section TakeFacts.
Context {A : Type}.

Lemma take_rows_at (df : list A) (locs : list nat) :
  (forall i, In i locs -> (i < List.length df)%nat) ->
  take df locs = Some (rows_at df locs)
  /\ List.length (rows_at df locs) = List.length locs.
Proof.
  induction locs as [|i locs IH]; intros Hin; [now split|].
  destruct IH as [IHt IHl]; [intros j Hj; apply Hin; now right|].
  assert (Hi : (i < List.length df)%nat) by (apply Hin; now left).
  apply nth_error_Some in Hi.
  unfold rows_at in *. cbn [take flat_map]. rewrite IHt.
  destruct (nth_error df i) as [r|]; [|congruence].
  split; [reflexivity|]. simpl. now rewrite IHl.
Qed.



End TakeFacts.

Section DashboardFacts.
Context {G : Type}.
Variable RandomState : Z -> G.
Variable permutation : G -> nat -> list nat * G.



(** Every draw of the generator rearranges range(n). *)
Hypothesis permutation_spec :
  forall g n, Permutation (fst (permutation g n)) (seq 0 n).

(** The sample of the distance histogram: the rows at the first
    min(200000, len) positions of the permutation drawn from a generator
    seeded with 42. *)
Lemma distance_sample_rows (df : list Trip) (np_random : G) :
  distance_sample RandomState permutation df np_random
  = (Ok (rows_at df
           (firstn (Z.to_nat (Z.min 200000 (len df)))
              (fst (permutation (RandomState 42) (List.length df))))),
     np_random)
  /\ len (rows_at df
            (firstn (Z.to_nat (Z.min 200000 (len df)))
               (fst (permutation (RandomState 42) (List.length df)))))
     = Z.min 200000 (len df).
Proof.
  pose proof (permutation_spec (RandomState 42) (List.length df)) as Hp.
  unfold distance_sample, sample.
  destruct (permutation (RandomState 42) (List.length df)) as [perm g'].
  simpl in Hp. cbn [fst].
  assert (Hlen : List.length perm = List.length df).
  { rewrite (Permutation_length Hp). apply length_seq. }
  destruct (take_rows_at df (firstn (Z.to_nat (Z.min 200000 (len df))) perm))
    as [Ht Hl].
  { intros i Hi. apply In_firstn in Hi.
    apply (Permutation_in _ Hp) in Hi. apply in_seq in Hi. lia. }
  assert (Hneg : (Z.min 200000 (len df) <? 0) = false).
  { apply Z.ltb_ge. unfold len. lia. }
  assert (Hbig : (len df <? Z.min 200000 (len df)) = false).
  { apply Z.ltb_ge. lia. }
  rewrite Hneg, Hbig, Ht. split; [reflexivity|].
  unfold len in *. rewrite Hl, length_firstn, Hlen. lia.
Qed.


(** With at least one trip in the view, [main] writes the metrics and the
    five charts, each from its aggregator run on the view. *)
Lemma main_renders (file : RawFrame) (df_zones : list ZoneRow)
  (sidebar : Sidebar) (np_random : G) (df_full : list Trip) :
  load_trip_data file = Ok df_full ->
  apply_filters df_full
    (fst (date_range sidebar)) (snd (date_range sidebar))
    (fst (hour_range sidebar)) (snd (hour_range sidebar))
    (selected_payments sidebar) <> [] ->
  exists df metrics df_sample,
    df = apply_filters df_full
           (fst (date_range sidebar)) (snd (date_range sidebar))
           (fst (hour_range sidebar)) (snd (hour_range sidebar))
           (selected_payments sidebar)
    /\ fst (distance_sample RandomState permutation df np_random)
       = Ok df_sample
    /\ main RandomState permutation (Some file) df_zones sidebar np_random
       = Ok [ metrics;
              top_zones_chart
                (sort_values Z.leb tz_trip_count (agg_top_zones df df_zones));
              fare_by_hour_chart (agg_fare_by_hour df);
              distance_histogram df_sample;
              payment_chart (agg_payment_types df);
              heatmap_chart (agg_heatmap df) ].
Proof.
  intros Hload Hne.
  unfold main. rewrite Hload. cbn [bind].
  destruct (date_range sidebar) as [s e], (hour_range sidebar) as [lo hi].
  simpl in *.
  destruct (apply_filters df_full s e lo hi (selected_payments sidebar))
    as [|r df] eqn:E; [contradiction|].
  destruct (distance_sample_rows (r :: df) np_random) as [Hs _].
  cbn [empty]. rewrite Hs. cbn [fst bind].
  do 3 eexists. split; [reflexivity|]. rewrite Hs. split; reflexivity.
Qed.
End DashboardFacts.

(* ================================================================== *)
(** * The sample data, run *)


Example scenario_loaded : load_trip_data scenario_file = Ok scenario_view.
Proof. reflexivity. Qed.

Example scenario_fare_by_hour :
  map (fun row => (fst row, option_map Qred (snd row)))
    (agg_fare_by_hour scenario_view)
  = [(5, Some 30%Q); (17, Some 15%Q)].
Proof. reflexivity. Qed.

Example scenario_payment_breakdown :
  agg_payment_types scenario_view = [("Credit Card", 2); ("Cash", 1)].
Proof. reflexivity. Qed.

Example scenario_hours_6_23 :
  map hour_of (apply_filters scenario_view (jan 1) (jan 31) 6 23 []) = [17].
Proof. reflexivity. Qed.

Example scenario_top_zones :
  agg_top_zones scenario_view
    [mkZoneRow 132 (Some "Queens") (Some "JFK Airport") (Some "Airports")]
  = [mkTopZone None None 2;
     mkTopZone (Some "JFK Airport") (Some "Queens") 1].
Proof. reflexivity. Qed.

Example odd_codes_labels :
  load_trip_data odd_codes_file
  = Ok (map (fun rl => mkTrip (fst rl) (snd rl))
          (combine (rows odd_codes_file) ["Other"; "Other"; "Voided Trip"])).
Proof. reflexivity. Qed.

Example no_payment_file_raises :
  load_trip_data no_payment_file = Raise (KeyError "payment_type").
Proof. reflexivity. Qed.

(** The theorem of C3 at a file with a code outside the table and a missing
    code. *)
Lemma payment_label_from_table_witness :
  has_required_columns odd_codes_file = true
  /\ exists trips,
       load_trip_data odd_codes_file = Ok trips
       /\ map payment_label trips = ["Other"; "Other"; "Voided Trip"].
Proof.
  split; [reflexivity|].
  destruct (payment_label_from_table odd_codes_file eq_refl)
    as (trips & Hload & Hraw & Hlabel & _).
  exists trips. split; [exact Hload|].
  rewrite (map_ext_Forall _ _ Hlabel).
  rewrite <- (map_map raw (fun r => payment_label_spec (payment_type r))).
  rewrite Hraw. reflexivity.
Defined.




(* ================================================================== *)
(** * Further properties of the filter engine *)

Lemma Date_le_refl (a : Date) : Date_le a a.
Proof. unfold Date_le. lia. Qed.

Lemma Date_le_trans (a b c : Date) : Date_le a b -> Date_le b c -> Date_le a c.
Proof. unfold Date_le. lia. Qed.

Lemma Date_le_total (a b : Date) : Date_le a b \/ Date_le b a.
Proof. unfold Date_le. lia. Qed.

Lemma Date_le_antisym (a b : Date) : Date_le a b -> Date_le b a -> a = b.
Proof.
  destruct a as [y m d], b as [y' m' d']. unfold Date_le. simpl.
  intros H1 H2. assert (y = y') by lia. assert (m = m') by lia.
  assert (d = d') by lia. congruence.
Qed.

Lemma filter_comm {A : Type} (f g : A -> bool) (l : list A) :
  filter f (filter g l) = filter g (filter f l).
Proof.
  induction l as [|x l IH]; simpl; [reflexivity|].
  destruct (f x) eqn:Ef, (g x) eqn:Eg; simpl; rewrite ?Ef, ?Eg, IH;
    reflexivity.
Qed.

Lemma filter_filter_implied {A : Type} (f g : A -> bool) (l : list A) :
  (forall x, In x l -> f x = true -> g x = true) ->
  filter f (filter g l) = filter f l.
Proof.
  induction l as [|x l IH]; intros Himp; simpl; [reflexivity|].
  assert (IH' : filter f (filter g l) = filter f l).
  { apply IH. intros y Hy. apply Himp. now right. }
  destruct (g x) eqn:Eg; simpl.
  - now rewrite IH'.
  - destruct (f x) eqn:Ef; [|exact IH'].
    rewrite (Himp x (or_introl eq_refl) Ef) in Eg. discriminate.
Qed.

Lemma filter_all {A : Type} (f : A -> bool) (l : list A) :
  (forall x, In x l -> f x = true) -> filter f l = l.
Proof.
  induction l as [|x l IH]; intros Hall; simpl; [reflexivity|].
  rewrite (Hall x (or_introl eq_refl)). f_equal.
  apply IH. intros y Hy. apply Hall. now right.
Qed.

Lemma filter_none {A : Type} (f : A -> bool) (l : list A) :
  (forall x, In x l -> f x = false) -> filter f l = [].
Proof.
  induction l as [|x l IH]; intros Hnone; simpl; [reflexivity|].
  rewrite (Hnone x (or_introl eq_refl)).
  apply IH. intros y Hy. apply Hnone. now right.
Qed.

(** X1.  Two filters applied one after the other give the same view in
    either order. *)
Theorem apply_filters_commute (df : list Trip)
  (s1 e1 : Date) (lo1 hi1 : Z) (labels1 : list string)
  (s2 e2 : Date) (lo2 hi2 : Z) (labels2 : list string) :
  apply_filters (apply_filters df s1 e1 lo1 hi1 labels1) s2 e2 lo2 hi2 labels2
  = apply_filters (apply_filters df s2 e2 lo2 hi2 labels2)
      s1 e1 lo1 hi1 labels1.
Proof.
  rewrite !apply_filters_filter. apply filter_comm.
Qed.

(** X2.  Narrowing a view gives what filtering the data directly gives:
    when the second criteria lie within the first (later or equal start,
    earlier or equal end, hour range inside, labels among the first ones or
    the first ones empty), filtering the first view with the second criteria
    equals filtering the whole frame with them. *)
Theorem apply_filters_narrow (df : list Trip)
  (s e : Date) (lo hi : Z) (labels : list string)
  (s' e' : Date) (lo' hi' : Z) (labels' : list string) :
  Date_le s s' -> Date_le e' e -> lo <= lo' -> hi' <= hi ->
  labels = [] \/ (labels' <> [] /\ incl labels' labels) ->
  apply_filters (apply_filters df s e lo hi labels) s' e' lo' hi' labels'
  = apply_filters df s' e' lo' hi' labels'.
Proof.
  intros Hs He Hlo Hhi Hl. rewrite !apply_filters_filter.
  apply filter_filter_implied. intros r _.
  rewrite !passesb_iff. unfold passes.
  intros (H1 & H2 & H3 & H4 & H5).
  repeat split; try lia.
  - eapply Date_le_trans; eauto.
  - eapply Date_le_trans; eauto.
  - destruct Hl as [->|[Hne Hincl]]; [now left|].
    right. destruct H5 as [->|H5]; [contradiction|]. now apply Hincl.
Qed.

(** X3.  An inverted range selects nothing: with [hour_max] below
    [hour_min], or [end_date] before [start_date], the view is empty. *)
Theorem apply_filters_inverted_range (df : list Trip) (s e : Date)
  (lo hi : Z) (labels : list string) :
  hi < lo \/ ~ Date_le s e ->
  apply_filters df s e lo hi labels = [].
Proof.
  intros Hinv. rewrite apply_filters_filter. apply filter_none.
  intros r _. destruct (passesb s e lo hi labels r) eqn:E; [|reflexivity].
  apply passesb_iff in E. destruct E as (H1 & H2 & H3 & H4 & _).
  destruct Hinv as [Hh|Hd]; [lia|].
  exfalso. apply Hd. eapply Date_le_trans; eauto.
Qed.

(** X4.  A range of a single day selects the trips picked up on that day
    (within the hour range and the labels). *)
Theorem apply_filters_single_day (df : list Trip) (d : Date) (lo hi : Z)
  (labels : list string) (r : Trip) :
  In r (apply_filters df d d lo hi labels)
  <-> In r df /\ pickup_date r = d
      /\ lo <= pickup_hour (raw r) <= hi
      /\ (labels = [] \/ In (payment_label r) labels).
Proof.
  rewrite apply_filters_filter, filter_In, passesb_iff. unfold passes.
  split.
  - intros (Hin & H1 & H2 & H3 & H4 & H5).
    repeat split; auto. symmetry. now apply Date_le_antisym.
  - intros (Hin & <- & [H3 H4] & H5).
    repeat split; auto using Date_le_refl.
Qed.

Lemma date_min_le (s : list Date) (m d : Date) :
  date_min s = Some m -> In d s -> Date_le m d.
Proof.
  revert m. induction s as [|x t IH]; intros m Hm Hd; [contradiction|].
  simpl in Hm. destruct (date_min t) as [m'|] eqn:Et.
  - injection Hm as <-.
    destruct (date_le x m') eqn:E.
    + apply date_cmp_le in E. destruct Hd as [<-|Hd];
        [apply Date_le_refl|].
      eapply Date_le_trans; [exact E | now apply IH].
    + assert (Hmx : Date_le m' x).
      { destruct (Date_le_total x m') as [Hx|Hx]; [|exact Hx].
        apply date_cmp_le in Hx. congruence. }
      destruct Hd as [<-|Hd]; [exact Hmx | now apply IH].
  - injection Hm as <-. destruct Hd as [<-|Hd]; [apply Date_le_refl|].
    destruct t; [contradiction|]. simpl in Et.
    destruct (date_min t); discriminate.
Qed.

Lemma date_max_ge (s : list Date) (m d : Date) :
  date_max s = Some m -> In d s -> Date_le d m.
Proof.
  revert m. induction s as [|x t IH]; intros m Hm Hd; [contradiction|].
  simpl in Hm. destruct (date_max t) as [m'|] eqn:Et.
  - injection Hm as <-. rewrite date_ge_le.
    destruct (date_le m' x) eqn:E.
    + apply date_cmp_le in E. destruct Hd as [<-|Hd];
        [apply Date_le_refl|].
      eapply Date_le_trans; [now apply IH | exact E].
    + assert (Hmx : Date_le x m').
      { destruct (Date_le_total m' x) as [Hx|Hx]; [|exact Hx].
        apply date_cmp_le in Hx. congruence. }
      destruct Hd as [<-|Hd]; [exact Hmx | now apply IH].
  - injection Hm as <-. destruct Hd as [<-|Hd]; [apply Date_le_refl|].
    destruct t; [contradiction|]. simpl in Et.
    destruct (date_max t); discriminate.
Qed.

(** X5.  With the widgets at their defaults (the whole date range of the
    data, hours 0 to 23, every label) the view is the whole frame, provided
    every pickup hour of the data lies in 0..23. *)
Theorem default_view_is_everything (df_full : list Trip) (sidebar : Sidebar) :
  default_sidebar df_full = Some sidebar ->
  (forall r, In r df_full -> 0 <= pickup_hour (raw r) <= 23) ->
  view_of df_full sidebar = df_full.
Proof.
  unfold default_sidebar, view_of, min_date, max_date.
  destruct (date_min (map pickup_date df_full)) as [lo|] eqn:Emin;
    [|discriminate].
  destruct (date_max (map pickup_date df_full)) as [hi|] eqn:Emax;
    [|discriminate].
  intros [= <-] Hhours. simpl.
  rewrite apply_filters_covering_labels.
  - rewrite apply_filters_filter. apply filter_all.
    intros r Hr. apply passesb_iff. unfold passes.
    specialize (Hhours r Hr).
    repeat split; try lia; [| |now left].
    + eapply date_min_le; [exact Emin | now apply in_map].
    + eapply date_max_ge; [exact Emax | now apply in_map].
  - intros r Hr. unfold all_payment_types.
    apply sort_values_In, unique_In, in_map, Hr.
Qed.

(* ================================================================== *)
(** * Further properties of the loader and of the label options *)

(** X6.  The load raises on the first column, in lookup order (pickup
    timestamp, dropoff timestamp, payment code), that the file lacks, also
    when later ones are absent too; when none is absent it returns as many
    rows as the file has. *)
Theorem load_trip_data_first_missing (file : RawFrame) :
  match first_missing file with
  | Some col => load_trip_data file = Raise (KeyError col)
  | None => exists trips,
              load_trip_data file = Ok trips
              /\ List.length trips = List.length (rows file)
  end.
Proof.
  unfold first_missing, required_columns. cbn [find].
  unfold load_trip_data, to_datetime.
  destruct (has_column file "tpep_pickup_datetime") eqn:Hp; cbn [negb].
  2:{ now rewrite (getitem_absent _ _ _ Hp). }
  rewrite (getitem_present _ _ _ Hp). cbn [bind].
  rewrite (setitem_same _ _ _ set_pickup_same).
  destruct (has_column file "tpep_dropoff_datetime") eqn:Hd; cbn [negb].
  2:{ now rewrite (getitem_absent _ _ _ Hd). }
  rewrite (getitem_present _ _ _ Hd). cbn [bind].
  rewrite (setitem_same _ _ _ set_dropoff_same).
  destruct (has_column file "payment_type") eqn:Hc; cbn [negb].
  2:{ now rewrite (getitem_absent _ _ _ Hc). }
  rewrite (getitem_present _ _ _ Hc). cbn [bind].
  eexists. split; [reflexivity|].
  unfold fillna, series_map.
  rewrite length_map, length_combine, !length_map. apply Nat.min_id.
Qed.

Lemma load_trip_data_inv (file : RawFrame) (trips : list Trip) :
  load_trip_data file = Ok trips ->
  trips = map (fun r => mkTrip r (payment_label_spec (payment_type r)))
            (rows file).
Proof.
  intros Hload. destruct (has_required_columns file) eqn:Hreq.
  - rewrite (load_trip_data_ok _ Hreq) in Hload. congruence.
  - destruct (load_trip_data_raises _ Hreq) as (col & _ & _ & Hr).
    congruence.
Qed.

Lemma payment_label_spec_known (code : option Z) :
  In (payment_label_spec code) known_labels.
Proof.
  unfold known_labels. simpl.
  destruct code as [k|]; [|simpl; tauto].
  destruct k as [|p|p]; [simpl; tauto| |simpl; tauto].
  do 3 (try destruct p as [p|p|]); simpl; tauto.
Qed.

Lemma groupby_keys_incl_filter {K : Type} `{Key K} (key : Trip -> K)
  (f : Trip -> bool) (df : list Trip) (k : K) :
  In k (map fst (groupby key (filter f df))) -> In k (map key df).
Proof.
  intros Hk. apply (proj1 (groupby_keys_In key k _)) in Hk.
  apply in_map_iff in Hk. destruct Hk as (r & <- & Hr).
  apply filter_In in Hr. apply in_map, Hr.
Qed.

Lemma agg_payment_types_keys (df : list Trip) :
  Permutation (map fst (agg_payment_types df))
    (map fst (groupby payment_label df)).
Proof.
  unfold agg_payment_types.
  rewrite <- (size_keys (groupby payment_label df)).
  apply Permutation_map, sort_values_perm.
Qed.

(** X7.  A loaded frame carries only the seven labels of the table and its
    fallback; so the payment multiselect offers at most seven options and
    the payment breakdown of any view of the frame has at most seven rows. *)
Theorem loaded_labels_known (file : RawFrame) (df_full : list Trip)
  (s e : Date) (lo hi : Z) (labels : list string) :
  load_trip_data file = Ok df_full ->
  Forall (fun r => In (payment_label r) known_labels) df_full
  /\ (List.length (all_payment_types df_full) <= 7)%nat
  /\ (List.length (agg_payment_types (apply_filters df_full s e lo hi labels))
      <= 7)%nat.
Proof.
  intros Hload. apply load_trip_data_inv in Hload.
  assert (Hknown : forall l, In l (map payment_label df_full) ->
                             In l known_labels).
  { intros l Hl. apply in_map_iff in Hl. destruct Hl as (r & <- & Hr).
    subst df_full. apply in_map_iff in Hr. destruct Hr as (x & <- & _).
    apply payment_label_spec_known. }
  split; [|split].
  - apply Forall_forall. intros r Hr. apply Hknown. now apply in_map.
  - change 7%nat with (List.length known_labels).
    apply NoDup_incl_length.
    + unfold all_payment_types.
      eapply Permutation_NoDup;
        [apply Permutation_sym, sort_values_perm | apply unique_NoDup].
    + intros l Hl. apply Hknown. unfold all_payment_types in Hl.
      apply (proj1 (sort_values_In String.leb (fun s => s) _ _)) in Hl.
      exact (proj1 (unique_In _ _) Hl).
  - rewrite <- (length_map fst).
    change 7%nat with (List.length known_labels).
    apply NoDup_incl_length.
    + eapply Permutation_NoDup;
        [apply Permutation_sym, agg_payment_types_keys
        | apply groupby_keys_NoDup].
    + intros l Hl. apply Hknown.
      apply (Permutation_in _ (agg_payment_types_keys _)) in Hl.
      rewrite apply_filters_filter in Hl.
      eapply groupby_keys_incl_filter; eauto.
Qed.

Lemma string_leb_trans (a b c : string) :
  String.leb a b = true -> String.leb b c = true -> String.leb a c = true.
Proof.
  revert b c. induction a as [|x a IH]; intros [|y b] [|z c];
    unfold String.leb in *; simpl; try discriminate; try reflexivity.
  unfold Ascii.compare.
  destruct (N.compare_spec (N_of_ascii x) (N_of_ascii y)) as [Exy|Exy|Exy];
    destruct (N.compare_spec (N_of_ascii y) (N_of_ascii z)) as [Eyz|Eyz|Eyz];
    destruct (N.compare_spec (N_of_ascii x) (N_of_ascii z)) as [Exz|Exz|Exz];
    try discriminate; try reflexivity; try lia.
  apply IH.
Qed.

(** X8.  The options of the payment multiselect are the labels that occur
    in the data, each once, in ascending string order. *)
Theorem all_payment_types_spec (df_full : list Trip) :
  NoDup (all_payment_types df_full)
  /\ (forall l, In l (all_payment_types df_full)
                <-> In l (map payment_label df_full))
  /\ StronglySorted (fun a b => String.leb a b = true)
       (all_payment_types df_full).
Proof.
  unfold all_payment_types. split; [|split].
  - eapply Permutation_NoDup;
      [apply Permutation_sym, sort_values_perm | apply unique_NoDup].
  - intros l. now rewrite sort_values_In, unique_In.
  - apply (sort_values_sorted String.leb (fun s : string => s));
      [apply String.leb_total | apply string_leb_trans].
Qed.

(* ================================================================== *)
(** * Further properties of the aggregators *)

Section MoreGroupFacts.
Context {K : Type} `{Key K} {A : Type} (key : A -> K).

Lemma in_size_groupby_pos (c : K * Z) (df : list A) :
  In c (size (groupby key df)) -> 1 <= snd c.
Proof.
  unfold size. rewrite in_map_iff. intros (kg & <- & Hkg). simpl.
  pose proof (in_groupby_nonempty key _ _ Hkg) as Hne.
  unfold len. destruct (snd kg); [contradiction|]. simpl List.length. lia.
Qed.


End MoreGroupFacts.





Section MergeFacts.
Context {L R K : Type} `{Key K} (left_on : L -> K) (right_on : R -> K).



End MergeFacts.


(** X9.  Payment Breakdown is in descending order of trip count, and every
    row counts at least one trip. *)
Theorem agg_payment_types_descending (df : list Trip) :
  StronglySorted (fun a b => snd a >= snd b) (agg_payment_types df)
  /\ Forall (fun row => 1 <= snd row) (agg_payment_types df).
Proof.
  unfold agg_payment_types. split.
  - rewrite <- (map_id (sort_values _ _ _)).
    apply (StronglySorted_map_impl
             (fun x y : string * Z => (snd x >=? snd y) = true)).
    + intros x y Hxy. apply Z.geb_le in Hxy. lia.
    + apply (sort_values_sorted Z.geb (fun row : string * Z => snd row));
        [apply Zgeb_total | apply Zgeb_trans].
  - rewrite Forall_forall. intros row Hrow.
    apply (proj1 (sort_values_In Z.geb (fun row : string * Z => snd row) _ _))
      in Hrow.
    eapply in_size_groupby_pos; eauto.
Qed.








(* ------------------------------------------------------------------ *)
(** *** Fare by Hour against the average fare *)






(* ================================================================== *)
(** * The outcome of main *)

Section MainFacts.
Context {G : Type}.
Variable RandomState : Z -> G.
Variable permutation : G -> nat -> list nat * G.
Hypothesis permutation_spec :
  forall g n, Permutation (fst (permutation g n)) (seq 0 n).

End MainFacts.

(* ================================================================== *)
(** * The further properties, run on the sample data *)

Lemma scenario_rows (P : Trip -> Prop) :
  P (mkTrip (trip_on 1 5 40%Q (Some 1) 161) "Credit Card") ->
  P (mkTrip (trip_on 2 5 20%Q (Some 2) 161) "Cash") ->
  P (mkTrip (trip_on 3 17 15%Q (Some 1) 132) "Credit Card") ->
  forall r, In r scenario_view -> P r.
Proof.
  intros H1 H2 H3 r [<-|[<-|[<-|[]]]]; assumption.
Qed.

(** X2 at the three trips: January 2 to 3, hours 5 to 17, cash only, taken
    from the view of the whole month. *)
Lemma apply_filters_narrow_witness :
  apply_filters (apply_filters scenario_view (jan 1) (jan 31) 0 23 [])
    (jan 2) (jan 3) 5 17 ["Cash"]
  = apply_filters scenario_view (jan 2) (jan 3) 5 17 ["Cash"].
Proof.
  apply apply_filters_narrow.
  - unfold Date_le, jan; simpl; lia.
  - unfold Date_le, jan; simpl; lia.
  - lia.
  - lia.
  - left. reflexivity.
Defined.

(** X3 at the three trips, with the hour range 23 to 0. *)
Lemma apply_filters_inverted_range_witness :
  apply_filters scenario_view (jan 1) (jan 31) 23 0 [] = [].
Proof.
  apply apply_filters_inverted_range. left. lia.
Defined.

(** X5 at the three trips: the defaults are January 1 to 3, hours 0 to 23
    and the two labels, and the view is all three trips. *)
Lemma default_view_is_everything_witness :
  default_sidebar scenario_view
  = Some (mkSidebar (jan 1, jan 3) (0, 23) ["Cash"; "Credit Card"])
  /\ view_of scenario_view
       (mkSidebar (jan 1, jan 3) (0, 23) ["Cash"; "Credit Card"])
     = scenario_view.
Proof.
  split; [reflexivity|].
  apply default_view_is_everything; [reflexivity|].
  apply scenario_rows; simpl; lia.
Defined.

(** X7 at the file with a code outside the table and a missing code. *)
Lemma loaded_labels_known_witness :
  Forall (fun r => In (payment_label r) known_labels)
    (map (fun r => mkTrip r (payment_label_spec (payment_type r)))
       (rows odd_codes_file))
  /\ (List.length
        (all_payment_types
           (map (fun r => mkTrip r (payment_label_spec (payment_type r)))
              (rows odd_codes_file))) <= 7)%nat.
Proof.
  destruct (loaded_labels_known odd_codes_file
              (map (fun r => mkTrip r (payment_label_spec (payment_type r)))
                 (rows odd_codes_file))
              (jan 1) (jan 31) 0 23 [] eq_refl) as (H1 & H2 & _).
  split; assumption.
Defined.




